(** * go-grpc-http1, package grpcweb: the JSON request reader and response writer

    A shallow embedding of [NewJsonReader] (json_reader.go) and of the
    [jsonWriter] response writer with its [Finalize] function and the
    status table [fromGrpcToStatus], followed by the properties of the
    transcoding contract.

    Conventions.  A Go [[]byte] is a [list Byte.byte]; a Go [string] is a
    Rocq [string] (both are byte sequences); Go's [int] lengths are
    unbounded [Z]/[nat] here and every fixed-width conversion the source
    performs ([uint32(...)], [byte(...)]) is written out as a reduction
    modulo a power of two.  A Go [[]string] that may be [nil] is an
    [option (list string)], [None] being the nil slice. *)

From Stdlib Require Import ZArith List String Ascii Lia.
From Stdlib Require Import DecimalString DecimalPos DecimalZ.
From Stdlib.Strings Require Import Byte.
From stdpp Require Import gmap strings list.

Local Open Scope Z_scope.

(** ** Go values *)

(** Go's [error] interface; only its identity matters here. *)
Definition error : Type := string.

(** [byte(v)]: conversion of an integer to [uint8] keeps the low 8 bits. *)
Definition byte_of_Z (v : Z) : Byte.byte :=
  match Byte.of_N (Z.to_N (v mod 256)) with
  | Some b => b
  | None => x00
  end.

(** [uint32(b)] for a byte [b]. *)
Definition Z_of_byte (b : Byte.byte) : Z := Z.of_N (Byte.to_N b).

(** [uint32(n)]: conversion of an [int] to [uint32] keeps the low 32 bits. *)
Definition uint32 (n : Z) : Z := n mod 2 ^ 32.

(** [make([]byte, n)]: [n] zero bytes. *)
Definition make (n : nat) : list Byte.byte := repeat x00 n.

(** [len(b)] as a Go [int]. *)
Definition len {A} (b : list A) : Z := Z.of_nat (length b).

(** [copy(dst[off:], src)]: overwrites [dst] from index [off] on with the
    first [min(len(dst)-off, len(src))] elements of [src]. *)
Definition copy_at {A} (off : nat) (src dst : list A) : list A :=
  let n := Nat.min (length dst - off) (length src) in
  take off dst ++ take n src ++ drop (off + n) dst.

(** ** encoding/binary: [binary.BigEndian] *)

Module BigEndian.

(** [binary.BigEndian.PutUint32(b[off:], v)]:
    [b[0] = byte(v >> 24); b[1] = byte(v >> 16); b[2] = byte(v >> 8);
     b[3] = byte(v)] on the slice [b[off:]].  Go panics when the slice
    is shorter than 4 bytes; the only call site passes at least 4. *)
Definition PutUint32 (off : nat) (v : Z) (b : list Byte.byte) : list Byte.byte :=
  let b := <[off := byte_of_Z (Z.shiftr v 24)]> b in
  let b := <[(off + 1)%nat := byte_of_Z (Z.shiftr v 16)]> b in
  let b := <[(off + 2)%nat := byte_of_Z (Z.shiftr v 8)]> b in
  <[(off + 3)%nat := byte_of_Z v]> b.

(** [binary.BigEndian.Uint32(b)]:
    [uint32(b[3]) | uint32(b[2])<<8 | uint32(b[1])<<16 | uint32(b[0])<<24]. *)
Definition Uint32 (b : list Byte.byte) : Z :=
  Z.lor (Z.lor (Z.lor (Z_of_byte (nth 3 b x00))
                      (Z.shiftl (Z_of_byte (nth 2 b x00)) 8))
               (Z.shiftl (Z_of_byte (nth 1 b x00)) 16))
        (Z.shiftl (Z_of_byte (nth 0 b x00)) 24).

End BigEndian.

(** ** json_reader.go *)

(** An [io.ReadCloser] handed to [NewJsonReader]: the bytes a full read
    delivers, the error (if any) that ends the read, and whether [Close]
    has been called on it. *)
Record ReadCloser : Type := mkReadCloser {
  rc_data : list Byte.byte;
  rc_err : option error;
  rc_closed : bool
}.

(** [ioutil.ReadAll(r)]: reads until EOF or an error and returns what was
    read together with the error; EOF itself is not reported as an error.
    The stream is left drained. *)
Definition ReadAll (r : ReadCloser) : ReadCloser * (list Byte.byte * option error) :=
  ({| rc_data := []; rc_err := rc_err r; rc_closed := rc_closed r |},
   (rc_data r, rc_err r)).

(** [r.Close()]. *)
Definition Close (r : ReadCloser) : ReadCloser :=
  {| rc_data := rc_data r; rc_err := rc_err r; rc_closed := true |}.

(** [jsonReader{ioutil.NopCloser(bytes.NewBuffer(newBody))}]: a stream
    that delivers [jr_buf]. *)
Record jsonReader : Type := mkJsonReader { jr_buf : list Byte.byte }.

(** [NewJsonReader(body)].  The result is the final state of [body] and
    the Go result pair (stream or nil, error or nil).  The deferred
    [body.Close()] is registered after the error check, so it runs only on
    the path that reaches it. *)
Definition NewJsonReader (body : ReadCloser)
  : ReadCloser * (option jsonReader * option error) :=
  let '(body, (content, err)) := ReadAll body in
  match err with
  | Some e => (body, (None, Some e))
  | None =>
      let newBody := make (length content + 5) in
      let newBody := BigEndian.PutUint32 1 (uint32 (len content)) newBody in
      let newBody := copy_at 5 content newBody in
      (Close body, (Some {| jr_buf := newBody |}, None))
  end.

(** The frame [NewJsonReader] builds for the payload [B], when the read
    succeeds. *)
Definition Encode (B : list Byte.byte) : option (list Byte.byte) :=
  jr_buf <$> fst (snd (NewJsonReader {| rc_data := B; rc_err := None; rc_closed := false |})).

(** ** net/http: headers and the underlying response writer *)

(** The elements of a possibly-nil [[]string]. *)
Definition slice_elems (s : option (list string)) : list string := default [] s.

(** [http.Header] is [map[string][]string].  [Get], [Set] and [Del] first
    canonicalise the key; every key the writer passes ("Trailer",
    "Content-Type", "Content-Length", "Grpc-Status") is already in
    canonical form, so canonicalisation is the identity on them. *)
Module http_Header.

(** [h[key]]: the stored slice, nil when the key is absent. *)
Definition index (h : gmap string (option (list string))) (key : string)
  : option (list string) :=
  match h !! key with
  | Some v => v
  | None => None
  end.

(** [h.Get(key)]: the first value stored under [key], or the empty string. *)
Definition Get (h : gmap string (option (list string))) (key : string) : string :=
  match index h key with
  | Some (v :: _) => v
  | _ => EmptyString
  end.

(** [h.Set(key, value)]: [h[key] = []string{value}]. *)
Definition Set_ (key value : string) (h : gmap string (option (list string)))
  : gmap string (option (list string)) :=
  <[key := Some [value]]> h.

(** [h.Del(key)]: [delete(h, key)]. *)
Definition Del (key : string) (h : gmap string (option (list string)))
  : gmap string (option (list string)) :=
  delete key h.

End http_Header.

(** What the writer asks of the underlying [http.ResponseWriter]. *)
Inductive SinkCall : Type :=
  | CallWriteHeader (statusCode : Z)
  | CallWrite (buf : list Byte.byte)
  | CallFlush.

(** The underlying [http.ResponseWriter]: its header map (a shared,
    mutable object), the calls received so far in order, the error its
    [Write] reports (nil for a healthy connection), and whether it also
    implements [http.Flusher]. *)
Record ResponseWriter : Type := mkResponseWriter {
  rw_header : gmap string (option (list string));
  rw_calls : list SinkCall;
  rw_write_err : option error;
  rw_flusher : bool
}.

Definition rw_set_header (h : gmap string (option (list string))) (s : ResponseWriter)
  : ResponseWriter :=
  {| rw_header := h; rw_calls := rw_calls s;
     rw_write_err := rw_write_err s; rw_flusher := rw_flusher s |}.

Definition rw_call (c : SinkCall) (s : ResponseWriter) : ResponseWriter :=
  {| rw_header := rw_header s; rw_calls := rw_calls s ++ [c];
     rw_write_err := rw_write_err s; rw_flusher := rw_flusher s |}.

(** ** strconv *)

(** [strconv.FormatInt(n, 10)]. *)
Definition FormatInt (n : Z) : string := NilZero.string_of_int (Z.to_int n).

(** The integer a decimal text denotes, if it is one. *)
Definition decimal_value (s : string) : option Z :=
  option_map Z.of_int (NilZero.int_of_string s).

Definition digit_of_ascii (c : ascii) : option Z :=
  let n := Z.of_N (N_of_ascii c) in
  if (48 <=? n) && (n <=? 57) then Some (n - 48) else None.

Fixpoint parse_digits (acc : Z) (s : string) : option Z :=
  match s with
  | EmptyString => Some acc
  | String c s' =>
      match digit_of_ascii c with
      | Some d => parse_digits (acc * 10 + d) s'
      | None => None
      end
  end.

(** [strconv.ParseUint(s, 10, 32)] when it returns a nil error: [s] is a
    non-empty string of decimal digits whose value fits 32 bits. *)
Definition ParseUint32 (s : string) : option Z :=
  match s with
  | EmptyString => None
  | _ =>
      match parse_digits 0 s with
      | Some v => if v <? 2 ^ 32 then Some v else None
      | None => None
      end
  end.

(** ** google.golang.org/grpc/codes *)

Module codes.

(** [type Code uint32] and its constants. *)
Definition Code : Type := Z.

Definition OK : Code := 0.
Definition Canceled : Code := 1.
Definition Unknown : Code := 2.
Definition InvalidArgument : Code := 3.
Definition DeadlineExceeded : Code := 4.
Definition NotFound : Code := 5.
Definition AlreadyExists : Code := 6.
Definition PermissionDenied : Code := 7.
Definition ResourceExhausted : Code := 8.
Definition FailedPrecondition : Code := 9.
Definition Aborted : Code := 10.
Definition OutOfRange : Code := 11.
Definition Unimplemented : Code := 12.
Definition Internal : Code := 13.
Definition Unavailable : Code := 14.
Definition DataLoss : Code := 15.
Definition Unauthenticated : Code := 16.
Definition maxCode : Z := 17.

(** A JSON string literal: the name between double quotes. *)
Definition quoted (name : string) : string :=
  String "034"%char (name ++ String "034"%char EmptyString).

(** [strToCode]: the JSON names of the codes. *)
Definition strToCode : list (string * Code) :=
  [ (quoted "OK", OK); (quoted "CANCELLED", Canceled);
    (quoted "UNKNOWN", Unknown); (quoted "INVALID_ARGUMENT", InvalidArgument);
    (quoted "DEADLINE_EXCEEDED", DeadlineExceeded); (quoted "NOT_FOUND", NotFound);
    (quoted "ALREADY_EXISTS", AlreadyExists);
    (quoted "PERMISSION_DENIED", PermissionDenied);
    (quoted "RESOURCE_EXHAUSTED", ResourceExhausted);
    (quoted "FAILED_PRECONDITION", FailedPrecondition);
    (quoted "ABORTED", Aborted); (quoted "OUT_OF_RANGE", OutOfRange);
    (quoted "UNIMPLEMENTED", Unimplemented); (quoted "INTERNAL", Internal);
    (quoted "UNAVAILABLE", Unavailable); (quoted "DATA_LOSS", DataLoss);
    (quoted "UNAUTHENTICATED", Unauthenticated) ].

Fixpoint lookup_name (b : string) (table : list (string * Code)) : option Code :=
  match table with
  | [] => None
  | (name, c) :: rest => if String.eqb b name then Some c else lookup_name b rest
  end.

(** [(c *Code).UnmarshalJSON(b)] on a non-nil receiver holding [c]: the
    new value of [*c] and the returned error.  "null" is a no-op; a
    decimal number below [_maxCode] or a quoted code name is stored;
    anything else leaves [*c] alone and is reported as an error. *)
Definition UnmarshalJSON (b : string) (c : Code) : Code * option error :=
  if String.eqb b "null" then (c, None)
  else match ParseUint32 b with
       | Some ci =>
           if maxCode <=? ci then (c, Some ("invalid code: " ++ FormatInt ci)%string)
           else (ci, None)
       | None =>
           match lookup_name b strToCode with
           | Some jc => (jc, None)
           | None => (c, Some ("invalid code: " ++ b)%string)
           end
       end.

End codes.

(** ** The response writer *)

(** [type jsonWriter struct]; [body] holds the contents of the
    [bytes.Buffer], and a nil [announcedTrailers] is [None]. *)
Record jsonWriter : Type := mkJsonWriter {
  w : ResponseWriter;
  statusCode : Z;
  header : list Byte.byte;
  body : list Byte.byte;
  announcedTrailers : option (list string)
}.

(** [NewJsonWriter(w)]: the fresh writer around the sink [w]. *)
Definition NewJsonWriter (sink : ResponseWriter) : jsonWriter :=
  {| w := sink; statusCode := 0; header := []; body := [];
     announcedTrailers := None |}.

(** [fromGrpcToStatus(code)]. *)
Definition fromGrpcToStatus (code : codes.Code) : Z :=
  if code =? codes.OK then 200
  else if code =? codes.InvalidArgument then 400
  else if code =? codes.NotFound then 404
  else if code =? codes.PermissionDenied then 403
  else if code =? codes.Unauthenticated then 401
  else if code =? codes.ResourceExhausted then 429
  else if code =? codes.Unimplemented then 501
  else if code =? codes.Aborted then 444
  else if code =? codes.DeadlineExceeded then 504
  else if code =? codes.Unavailable then 503
  else if code =? codes.FailedPrecondition then 428
  else if code =? codes.Unknown then 500
  else 500.

(** What a handler can do with the writer it is given: the three
    [http.ResponseWriter] methods and [Flush], and, through the map that
    [Header()] returns, any store into or deletion from the header map. *)
Inductive Op : Type :=
  | OpWrite (buf : list Byte.byte)
  | OpWriteHeader (statusCode : Z)
  | OpFlush
  | OpHeaderStore (key : string) (value : option (list string))
  | OpHeaderDelete (key : string).

(** Whether the handler ever calls [WriteHeader]. *)
Definition is_WriteHeader (o : Op) : bool :=
  match o with OpWriteHeader _ => true | _ => false end.

(** Two slice clones to instantiate the writer with: one that keeps a nil
    slice nil, one that always allocates. *)
Definition clone_keeping_nil (s : option (list string)) : option (list string) := s.
Definition clone_allocating (s : option (list string)) : option (list string) :=
  Some (slice_elems s).

Section Writer.

(** [sliceutils.StringClone] is not among the sources: the writer is
    parametrised by it.  It is only ever assumed to return a slice with
    the elements of its argument ([StringClone_elems], stated where it
    is used). *)
Variable StringClone : option (list string) -> option (list string).

(** [w.Header()]: the header map of the underlying writer. *)
Definition Header (jw : jsonWriter) : gmap string (option (list string)) :=
  rw_header (w jw).

(** [w.Flush()]: the body is empty. *)
Definition Flush (jw : jsonWriter) : jsonWriter := jw.

(** [w.prepareHeadersIfNecessary()]. *)
Definition prepareHeadersIfNecessary (jw : jsonWriter) : jsonWriter :=
  match announcedTrailers jw with
  | Some _ => jw
  | None =>
      let hdr := rw_header (w jw) in
      let trailers := StringClone (http_Header.index hdr "Trailer") in
      let hdr := http_Header.Del "Trailer" hdr in
      let hdr := http_Header.Set_ "Content-Type" "application/json" hdr in
      {| w := rw_set_header hdr (w jw); statusCode := statusCode jw;
         header := header jw; body := body jw;
         announcedTrailers := trailers |}
  end.

(** [w.WriteHeader(statusCode)]. *)
Definition WriteHeader (code : Z) (jw : jsonWriter) : jsonWriter :=
  let jw := prepareHeadersIfNecessary jw in
  {| w := w jw; statusCode := code; header := header jw; body := body jw;
     announcedTrailers := announcedTrailers jw |}.

(** [w.Write(buf)]: [bytes.Buffer.Write] appends [buf] and returns
    [(len(buf), nil)]. *)
Definition Write (buf : list Byte.byte) (jw : jsonWriter)
  : jsonWriter * (Z * option error) :=
  let jw := prepareHeadersIfNecessary jw in
  ({| w := w jw; statusCode := statusCode jw; header := header jw;
      body := body jw ++ buf; announcedTrailers := announcedTrailers jw |},
   (len buf, None)).

(** [w.Finalize()]: the final writer and the returned error. *)
Definition Finalize (jw : jsonWriter) : jsonWriter * option error :=
  let jw := prepareHeadersIfNecessary jw in
  let out := if 5 <=? len (body jw) then drop 5 (body jw) else body jw in
  let sink := rw_set_header
                (http_Header.Set_ "Content-Length" (FormatInt (len out))
                                  (rw_header (w jw))) (w jw) in
  let hdr := rw_header sink in
  let sink :=
    if negb (statusCode jw =? 0) then rw_call (CallWriteHeader (statusCode jw)) sink
    else
      let '(code, _) := codes.UnmarshalJSON (http_Header.Get hdr "Grpc-Status") 0 in
      rw_call (CallWriteHeader (fromGrpcToStatus code)) sink in
  let sink := rw_call (CallWrite out) sink in
  let jw' := fun sink => {| w := sink; statusCode := statusCode jw;
                            header := header jw; body := body jw;
                            announcedTrailers := announcedTrailers jw |} in
  match rw_write_err sink with
  | Some err => (jw' sink, Some err)
  | None =>
      if rw_flusher sink then (jw' (rw_call CallFlush sink), None)
      else (jw' sink, None)
  end.

(** One handler action. *)
Definition step (o : Op) (jw : jsonWriter) : jsonWriter :=
  match o with
  | OpWrite buf => fst (Write buf jw)
  | OpWriteHeader code => WriteHeader code jw
  | OpFlush => Flush jw
  | OpHeaderStore key value =>
      {| w := rw_set_header (<[key := value]> (rw_header (w jw))) (w jw);
         statusCode := statusCode jw; header := header jw; body := body jw;
         announcedTrailers := announcedTrailers jw |}
  | OpHeaderDelete key =>
      {| w := rw_set_header (delete key (rw_header (w jw))) (w jw);
         statusCode := statusCode jw; header := header jw; body := body jw;
         announcedTrailers := announcedTrailers jw |}
  end.

(** A handler run: its actions in order. *)
Definition run (ops : list Op) (jw : jsonWriter) : jsonWriter :=
  fold_left (fun jw o => step o jw) ops jw.

(** The three entry points that call [prepareHeadersIfNecessary]. *)
Inductive Method : Type :=
  | MWrite (buf : list Byte.byte)
  | MWriteHeader (statusCode : Z)
  | MFinalize.

Definition invoke (m : Method) (jw : jsonWriter) : jsonWriter :=
  match m with
  | MWrite buf => fst (Write buf jw)
  | MWriteHeader code => WriteHeader code jw
  | MFinalize => fst (Finalize jw)
  end.


End Writer.

(** ** Reading the sink's log *)

(** The calls a step added to the sink's log. *)
Definition emitted (before after : jsonWriter) : list SinkCall :=
  drop (length (rw_calls (w before))) (rw_calls (w after)).

(** The status code of the first [WriteHeader] in a log. *)
Fixpoint written_status (calls : list SinkCall) : option Z :=
  match calls with
  | [] => None
  | CallWriteHeader code :: _ => Some code
  | _ :: rest => written_status rest
  end.

(** The bytes passed to [Write] in a log, in order. *)
Fixpoint written_body (calls : list SinkCall) : list Byte.byte :=
  match calls with
  | [] => []
  | CallWrite buf :: rest => buf ++ written_body rest
  | _ :: rest => written_body rest
  end.


(** A sink in the manner of [httptest.NewRecorder]: the given headers, an
    empty log, a [Write] that succeeds, and a [Flush] method. *)
Definition recorder (h : gmap string (option (list string))) : ResponseWriter :=
  {| rw_header := h; rw_calls := []; rw_write_err := None; rw_flusher := true |}.

(** The frame of the payload [{"b":2}]: five header bytes, seven payload
    bytes. *)
Definition payload_b2 : list Byte.byte := [x7b; x22; x62; x22; x3a; x32; x7d].
Definition frame_b2 : list Byte.byte := [x00; x00; x00; x00; x07] ++ payload_b2.

(** A handler in the manner of a gRPC server: it announces its trailers,
    writes one frame and stores the status among the headers. *)
Definition handler (status : string) : list Op :=
  [ OpHeaderStore "Trailer" (Some ["Grpc-Status"; "Grpc-Message"]%string);
    OpWrite frame_b2;
    OpHeaderStore "Grpc-Status" (Some [status]) ].

(** The writer such a handler leaves behind on a fresh recorder. *)
Definition handled (status : string) : jsonWriter :=
  run clone_keeping_nil (handler status) (NewJsonWriter (recorder ∅)).

(** A handler that answers with two bytes only, [{}]. *)
Definition handled_short : jsonWriter :=
  run clone_keeping_nil [OpWrite [x7b; x7d]] (NewJsonWriter (recorder ∅)).

(** A handler that stores the status 5 and then calls [WriteHeader(0)]. *)
Definition handled_zero : jsonWriter :=
  run clone_keeping_nil
      [OpHeaderStore "Grpc-Status" (Some ["5"%string]); OpWriteHeader 0]
      (NewJsonWriter (recorder ∅)).


(** A stream whose read fails after one byte. *)
Definition failing_stream : ReadCloser :=
  {| rc_data := [x7b]; rc_err := Some "unexpected EOF"%string; rc_closed := false |}.

(** ** Handler runs *)

(** The bytes a handler run passes to [Write], in order. *)
Fixpoint written_by (ops : list Op) : list Byte.byte :=
  match ops with
  | [] => []
  | OpWrite buf :: rest => buf ++ written_by rest
  | _ :: rest => written_by rest
  end.


(** A recorder whose connection is gone: every [Write] reports [err]. *)
Definition broken_recorder (err : error) : ResponseWriter :=
  {| rw_header := ∅; rw_calls := []; rw_write_err := Some err; rw_flusher := true |}.

(** The writer a handler leaves on a broken recorder. *)
Definition handled_broken : jsonWriter :=
  run clone_keeping_nil (handler "0") (NewJsonWriter (broken_recorder "broken pipe")).

(** * Properties *)

(** ** Bytes and big-endian words *)

Lemma Z_of_byte_of_Z (v : Z) : Z_of_byte (byte_of_Z v) = v mod 256.
Proof.
  unfold Z_of_byte, byte_of_Z.
  assert (Hb : 0 <= v mod 256 < 256) by (apply Z.mod_pos_bound; lia).
  destruct (Byte.of_N (Z.to_N (v mod 256))) as [b|] eqn:E.
  - apply Byte.to_of_N in E. rewrite E. rewrite Z2N.id; lia.
  - apply Byte.of_N_None_iff in E. lia.
Qed.

Lemma testbit_above (v n i : Z) :
  0 <= v < 2 ^ n -> 0 <= n <= i -> Z.testbit v i = false.
Proof.
  intros Hv Hi. rewrite <- (Z.mod_small v (2 ^ n)) by lia.
  apply Z.mod_pow2_bits_high. lia.
Qed.

Lemma Uint32_bytes (v : Z) :
  0 <= v < 2 ^ 32 ->
  BigEndian.Uint32 [byte_of_Z (Z.shiftr v 24); byte_of_Z (Z.shiftr v 16);
                    byte_of_Z (Z.shiftr v 8); byte_of_Z v] = v.
Proof.
  intros Hv. unfold BigEndian.Uint32. cbn [nth].
  rewrite !Z_of_byte_of_Z. change 256 with (2 ^ 8).
  apply Z.bits_inj'. intros i Hi.
  rewrite !Z.lor_spec, !Z.shiftl_spec by lia.
  destruct (Z_lt_le_dec i 8) as [H8|H8].
  { rewrite (Z.mod_pow2_bits_low v) by lia.
    rewrite !(Z.testbit_neg_r _ (i - _)) by lia.
    now rewrite !orb_false_r. }
  rewrite (Z.mod_pow2_bits_high v) by lia. cbn [orb].
  destruct (Z_lt_le_dec i 16) as [H16|H16].
  { rewrite Z.mod_pow2_bits_low, Z.shiftr_spec by lia.
    rewrite !(Z.testbit_neg_r _ (i - _)) by lia.
    rewrite !orb_false_r. f_equal. lia. }
  rewrite (Z.mod_pow2_bits_high _ 8 (i - 8)) by lia. cbn [orb].
  destruct (Z_lt_le_dec i 24) as [H24|H24].
  { rewrite Z.mod_pow2_bits_low, Z.shiftr_spec by lia.
    rewrite !(Z.testbit_neg_r _ (i - _)) by lia.
    rewrite !orb_false_r. f_equal. lia. }
  rewrite (Z.mod_pow2_bits_high _ 8 (i - 16)) by lia. cbn [orb].
  destruct (Z_lt_le_dec i 32) as [H32|H32].
  { rewrite Z.mod_pow2_bits_low, Z.shiftr_spec by lia. f_equal. lia. }
  rewrite Z.mod_pow2_bits_high by lia.
  symmetry. apply (testbit_above v 32); lia.
Qed.

Lemma uint32_range (n : Z) : 0 <= uint32 n < 2 ^ 32.
Proof. unfold uint32. apply Z.mod_pos_bound. lia. Qed.

(** ** The request reader *)

Lemma copy_at_fill {A} (pre src pad : list A) :
  length pad = length src ->
  copy_at (length pre) src (pre ++ pad) = pre ++ src.
Proof.
  intros Hlen. unfold copy_at.
  rewrite length_app, Hlen.
  replace (length pre + length src - length pre)%nat with (length src) by lia.
  rewrite Nat.min_id, take_app_length, firstn_all.
  rewrite drop_ge by (rewrite length_app; lia).
  now rewrite app_nil_r.
Qed.

Lemma NewJsonReader_frame (B : list Byte.byte) :
  Encode B =
  Some (x00 :: byte_of_Z (Z.shiftr (uint32 (len B)) 24)
            :: byte_of_Z (Z.shiftr (uint32 (len B)) 16)
            :: byte_of_Z (Z.shiftr (uint32 (len B)) 8)
            :: byte_of_Z (uint32 (len B)) :: B).
Proof.
  unfold Encode, NewJsonReader, ReadAll, make.
  cbn [rc_data rc_err fst snd fmap option_fmap option_map jr_buf].
  rewrite (Nat.add_comm (length B) 5). cbn [Nat.add repeat].
  unfold BigEndian.PutUint32. cbn [Nat.add].
  cbn -[byte_of_Z uint32 len repeat copy_at Z.shiftr].
  f_equal.
  exact (copy_at_fill [_; _; _; _; _] B (repeat x00 (length B)) (repeat_length _ _)).
Qed.

Lemma Encode_length_field (B out : list Byte.byte) :
  Encode B = Some out ->
  BigEndian.Uint32 (take 4 (drop 1 out)) = uint32 (len B).
Proof.
  rewrite NewJsonReader_frame. intros [= <-].
  cbn [drop take]. apply Uint32_bytes, uint32_range.
Qed.

(** C1 (as amended).  For every byte sequence [B] shorter than 2^32 bytes
    that the input stream delivers, [NewJsonReader] returns a buffer of
    [len(B)+5] bytes whose byte 0 is the flag 0x00, whose bytes 1-4 decode
    as a big-endian unsigned 32-bit integer to [len(B)], and whose bytes
    from index 5 on are [B]. *)
Theorem NewJsonReader_frame_layout (B : list Byte.byte) :
  len B < 2 ^ 32 ->
  exists out,
    Encode B = Some out /\
    len out = len B + 5 /\
    out !! 0%nat = Some x00 /\
    BigEndian.Uint32 (take 4 (drop 1 out)) = len B /\
    drop 5 out = B.
Proof.
  intros Hlen. eexists. split; [apply NewJsonReader_frame|].
  repeat split.
  - unfold len. cbn [length]. lia.
  - cbn [drop take]. rewrite Uint32_bytes by apply uint32_range.
    unfold uint32. apply Z.mod_small. unfold len in *. lia.
Qed.

Lemma NewJsonReader_frame_layout_witness :
  len [x7b; x7d] < 2 ^ 32 /\
  exists out,
    Encode [x7b; x7d] = Some out /\
    len out = len [x7b; x7d] + 5 /\
    out !! 0%nat = Some x00 /\
    BigEndian.Uint32 (take 4 (drop 1 out)) = len [x7b; x7d] /\
    drop 5 out = [x7b; x7d].
Proof.
  split; [reflexivity|].
  apply (NewJsonReader_frame_layout [x7b; x7d]). reflexivity.
Defined.

(** C1 as stated fails on a payload of exactly 2^32 bytes: [uint32(len)]
    wraps to 0, so bytes 1-4 decode to 0 and not to the payload length. *)
Lemma NewJsonReader_length_field_wraps :
  exists out,
    Encode (repeat x00 (Z.to_nat (2 ^ 32))) = Some out /\
    BigEndian.Uint32 (take 4 (drop 1 out)) = 0 /\
    BigEndian.Uint32 (take 4 (drop 1 out)) <> len (repeat x00 (Z.to_nat (2 ^ 32))).
Proof.
  assert (HB : len (repeat x00 (Z.to_nat (2 ^ 32))) = 2 ^ 32).
  { unfold len. rewrite repeat_length. apply Z2Nat.id. lia. }
  eexists. split; [apply NewJsonReader_frame|].
  cbn [drop take]. rewrite HB.
  split; [reflexivity | discriminate].
Qed.

(** The end-to-end scenario of the specification: the 7 bytes of
    [{"a":1}] become a 12-byte frame. *)
Example NewJsonReader_scenario :
  Encode [x7b; x22; x61; x22; x3a; x31; x7d]
  = Some [x00; x00; x00; x00; x07; x7b; x22; x61; x22; x3a; x31; x7d].
Proof. reflexivity. Qed.

Lemma NewJsonReader_success (body : ReadCloser) :
  rc_err body = None ->
  rc_closed (fst (NewJsonReader body)) = true /\
  snd (snd (NewJsonReader body)) = None /\
  exists r, fst (snd (NewJsonReader body)) = Some r.
Proof.
  intros He. unfold NewJsonReader, ReadAll. rewrite He. cbn. eauto.
Qed.

Lemma NewJsonReader_failure (body : ReadCloser) (e : error) :
  rc_err body = Some e ->
  snd (NewJsonReader body) = (None, Some e) /\
  rc_closed (fst (NewJsonReader body)) = rc_closed body.
Proof.
  intros He. unfold NewJsonReader, ReadAll. rewrite He. cbn. eauto.
Qed.

(** C8.  On a stream whose read fails, [NewJsonReader] surfaces the read
    error unchanged and returns no stream, but it returns before the
    deferred [Close] is registered: the input stream is left open, whereas
    a successful read leaves it closed. *)
Theorem NewJsonReader_read_error_leaves_stream_open :
  snd (NewJsonReader failing_stream) = (None, rc_err failing_stream) /\
  rc_closed (fst (NewJsonReader failing_stream)) = false /\
  rc_closed (fst (NewJsonReader
                    {| rc_data := rc_data failing_stream; rc_err := None;
                       rc_closed := false |})) = true.
Proof. repeat split. Qed.

(** ** The response writer *)

Section WriterProperties.

Variable StringClone : option (list string) -> option (list string).

Lemma prepare_fields (jw : jsonWriter) :
  statusCode (prepareHeadersIfNecessary StringClone jw) = statusCode jw /\
  header (prepareHeadersIfNecessary StringClone jw) = header jw /\
  body (prepareHeadersIfNecessary StringClone jw) = body jw /\
  rw_calls (w (prepareHeadersIfNecessary StringClone jw)) = rw_calls (w jw) /\
  rw_write_err (w (prepareHeadersIfNecessary StringClone jw)) = rw_write_err (w jw) /\
  rw_flusher (w (prepareHeadersIfNecessary StringClone jw)) = rw_flusher (w jw).
Proof.
  unfold prepareHeadersIfNecessary.
  destruct (announcedTrailers jw); repeat split.
Qed.

(** Preparation touches the keys "Trailer" and "Content-Type" only. *)
Lemma prepare_lookup_other (jw : jsonWriter) (key : string) :
  key <> "Trailer"%string -> key <> "Content-Type"%string ->
  Header (prepareHeadersIfNecessary StringClone jw) !! key = Header jw !! key.
Proof.
  intros Ht Hc. unfold prepareHeadersIfNecessary, Header.
  destruct (announcedTrailers jw); [reflexivity|].
  cbn [w rw_set_header rw_header]. unfold http_Header.Set_, http_Header.Del.
  rewrite lookup_insert_ne by congruence.
  now rewrite lookup_delete_ne by congruence.
Qed.

(** Once a slice has been captured, preparation is skipped. *)
Lemma prepare_skipped (jw : jsonWriter) :
  announcedTrailers jw <> None -> prepareHeadersIfNecessary StringClone jw = jw.
Proof.
  unfold prepareHeadersIfNecessary. destruct (announcedTrailers jw); congruence.
Qed.

(** The sink after [Finalize]: its headers are the prepared ones with
    "Content-Length" set, and its log has grown by one [WriteHeader],
    one [Write] and, after a successful write to a flusher, one
    [Flush]. *)
Lemma Finalize_sink (jw : jsonWriter) :
  let out := if 5 <=? len (body jw) then drop 5 (body jw) else body jw in
  let status :=
    if statusCode jw =? 0
    then fromGrpcToStatus
           (fst (codes.UnmarshalJSON (http_Header.Get (Header jw) "Grpc-Status") 0))
    else statusCode jw in
  let flush :=
    match rw_write_err (w jw) with
    | Some _ => []
    | None => if rw_flusher (w jw) then [CallFlush] else []
    end in
  Header (fst (Finalize StringClone jw))
    = http_Header.Set_ "Content-Length" (FormatInt (len out))
                       (Header (prepareHeadersIfNecessary StringClone jw)) /\
  rw_calls (w (fst (Finalize StringClone jw)))
    = rw_calls (w jw) ++ CallWriteHeader status :: CallWrite out :: flush /\
  snd (Finalize StringClone jw) = rw_write_err (w jw) /\
  statusCode (fst (Finalize StringClone jw)) = statusCode jw /\
  body (fst (Finalize StringClone jw)) = body jw /\
  announcedTrailers (fst (Finalize StringClone jw))
    = announcedTrailers (prepareHeadersIfNecessary StringClone jw).
Proof.
  intros out status flush.
  destruct (prepare_fields jw) as (Hs & _ & Hb & Hc & He & Hf).
  assert (Hg : http_Header.Get
                 (http_Header.Set_ "Content-Length" (FormatInt (len out))
                    (Header (prepareHeadersIfNecessary StringClone jw))) "Grpc-Status"
               = http_Header.Get (Header jw) "Grpc-Status").
  { unfold http_Header.Get, http_Header.index, http_Header.Set_.
    rewrite lookup_insert_ne by discriminate.
    now rewrite prepare_lookup_other by discriminate. }
  unfold Finalize, Header in *.
  revert Hs Hb Hc He Hf Hg.
  generalize (prepareHeadersIfNecessary StringClone jw) as p.
  intros [[ph pc pe pf] ps phd pb pa].
  cbn [w statusCode body rw_calls rw_write_err rw_flusher rw_header
       rw_set_header announcedTrailers].
  intros -> -> -> -> -> Hg. fold out. rewrite Hg.
  destruct (codes.UnmarshalJSON _ 0) as [code uerr] eqn:Hu.
  subst status flush. cbn [fst].
  destruct (statusCode jw =? 0) eqn:Hz; cbn [negb];
    destruct (rw_write_err (w jw)) eqn:Hw; [ | destruct (rw_flusher (w jw)) eqn:Hfl .. ];
    cbn [fst snd w statusCode body announcedTrailers rw_call rw_calls rw_header
         rw_write_err rw_flusher rw_set_header];
    rewrite ?Hw, ?Hfl;
    cbn [fst snd w statusCode body announcedTrailers rw_call rw_calls rw_header
         rw_write_err rw_flusher rw_set_header];
    rewrite <- ?app_assoc; cbn [app]; repeat split.
Qed.

Lemma emitted_Finalize (jw : jsonWriter) :
  exists flush,
    emitted jw (fst (Finalize StringClone jw))
    = CallWriteHeader
        (if statusCode jw =? 0
         then fromGrpcToStatus
                (fst (codes.UnmarshalJSON
                        (http_Header.Get (Header jw) "Grpc-Status") 0))
         else statusCode jw)
      :: CallWrite (if 5 <=? len (body jw) then drop 5 (body jw) else body jw)
      :: flush
    /\ (flush = [] \/ flush = [CallFlush]).
Proof.
  destruct (Finalize_sink jw) as (_ & Hc & _).
  unfold emitted. rewrite Hc, drop_app_length.
  eexists. split; [reflexivity|].
  destruct (rw_write_err (w jw)); [|destruct (rw_flusher (w jw))]; auto.
Qed.

Lemma written_body_Finalize (jw : jsonWriter) :
  written_body (emitted jw (fst (Finalize StringClone jw)))
  = if 5 <=? len (body jw) then drop 5 (body jw) else body jw.
Proof.
  destruct (emitted_Finalize jw) as (flush & -> & [-> | ->]);
    cbn [written_body]; now rewrite app_nil_r.
Qed.

Lemma written_status_Finalize (jw : jsonWriter) :
  written_status (emitted jw (fst (Finalize StringClone jw)))
  = Some (if statusCode jw =? 0
          then fromGrpcToStatus
                 (fst (codes.UnmarshalJSON
                         (http_Header.Get (Header jw) "Grpc-Status") 0))
          else statusCode jw).
Proof.
  destruct (emitted_Finalize jw) as (flush & -> & _). reflexivity.
Qed.

(** The status code is whatever the last [WriteHeader] stored. *)
Lemma step_statusCode (o : Op) (jw : jsonWriter) :
  statusCode (step StringClone o jw)
  = match o with OpWriteHeader code => code | _ => statusCode jw end.
Proof.
  destruct o; cbn [step Write WriteHeader Flush fst statusCode]; try reflexivity.
  apply prepare_fields.
Qed.

Lemma run_app (ops1 ops2 : list Op) (jw : jsonWriter) :
  run StringClone (ops1 ++ ops2) jw = run StringClone ops2 (run StringClone ops1 jw).
Proof. unfold run. apply fold_left_app. Qed.

Lemma run_statusCode (ops : list Op) (jw : jsonWriter) :
  forallb (fun o => negb (is_WriteHeader o)) ops = true ->
  statusCode (run StringClone ops jw) = statusCode jw.
Proof.
  revert jw. induction ops as [|o ops IH]; intros jw Hops; [reflexivity|].
  cbn [forallb] in Hops. apply andb_prop in Hops as [Ho Hops].
  change (statusCode (run StringClone ops (step StringClone o jw)) = statusCode jw).
  rewrite IH by assumption. rewrite step_statusCode.
  destruct o; try reflexivity. discriminate.
Qed.

(** C2.  For every buffered body [R], the body [Finalize] writes to the
    sink is [R[5:]] when [len(R) >= 5] and [R] itself when [len(R) < 5]. *)
Theorem Finalize_strips_frame_header (jw : jsonWriter) :
  (5 <= len (body jw) ->
   written_body (emitted jw (fst (Finalize StringClone jw))) = drop 5 (body jw)) /\
  (len (body jw) < 5 ->
   written_body (emitted jw (fst (Finalize StringClone jw))) = body jw).
Proof.
  rewrite written_body_Finalize.
  split; intros H; destruct (Z.leb_spec 5 (len (body jw))); (reflexivity || lia).
Qed.

Lemma UnmarshalJSON_decimal (n : Z) :
  0 <= n < codes.maxCode ->
  codes.UnmarshalJSON (FormatInt n) 0 = (n, None).
Proof.
  unfold codes.maxCode. intros Hn.
destruct n as [|p|p]; [reflexivity| |lia].
do 5 (try (destruct p as [p|p|]; try lia; try reflexivity)).
Qed.

(** C3.  When [WriteHeader] was never called and the "Grpc-Status"
    header holds a valid status code (one [UnmarshalJSON] accepts, in
    particular the decimal text of a code below 17), the status
    [Finalize] sends is [fromGrpcToStatus] of that code; "5" yields 404
    and "16" yields 401; and [fromGrpcToStatus] is the table OK 200,
    InvalidArgument 400, NotFound 404, PermissionDenied 403,
    Unauthenticated 401, ResourceExhausted 429, Unimplemented 501,
    Aborted 444, DeadlineExceeded 504, Unavailable 503,
    FailedPrecondition 428, Unknown 500, any other code 500. *)
Theorem Finalize_status_from_Grpc_Status (sink : ResponseWriter) (ops : list Op) :
  forallb (fun o => negb (is_WriteHeader o)) ops = true ->
  let jw := run StringClone ops (NewJsonWriter sink) in
  let sent := written_status (emitted jw (fst (Finalize StringClone jw))) in
  let status := http_Header.Get (Header jw) "Grpc-Status" in
  (forall c, codes.UnmarshalJSON status 0 = (c, None) ->
             sent = Some (fromGrpcToStatus c)) /\
  (forall n, 0 <= n < codes.maxCode -> status = FormatInt n ->
             sent = Some (fromGrpcToStatus n)) /\
  (status = "5"%string -> sent = Some 404) /\
  (status = "16"%string -> sent = Some 401) /\
  fromGrpcToStatus codes.OK = 200 /\
  fromGrpcToStatus codes.InvalidArgument = 400 /\
  fromGrpcToStatus codes.NotFound = 404 /\
  fromGrpcToStatus codes.PermissionDenied = 403 /\
  fromGrpcToStatus codes.Unauthenticated = 401 /\
  fromGrpcToStatus codes.ResourceExhausted = 429 /\
  fromGrpcToStatus codes.Unimplemented = 501 /\
  fromGrpcToStatus codes.Aborted = 444 /\
  fromGrpcToStatus codes.DeadlineExceeded = 504 /\
  fromGrpcToStatus codes.Unavailable = 503 /\
  fromGrpcToStatus codes.FailedPrecondition = 428 /\
  fromGrpcToStatus codes.Unknown = 500 /\
  (forall c,
      ~ In c [codes.OK; codes.InvalidArgument; codes.NotFound;
              codes.PermissionDenied; codes.Unauthenticated;
              codes.ResourceExhausted; codes.Unimplemented; codes.Aborted;
              codes.DeadlineExceeded; codes.Unavailable;
              codes.FailedPrecondition; codes.Unknown] ->
      fromGrpcToStatus c = 500).
Proof.
  intros Hops jw sent status.
  assert (Hsent : sent = Some (fromGrpcToStatus (fst (codes.UnmarshalJSON status 0)))).
  { subst sent. rewrite written_status_Finalize.
    subst jw. rewrite run_statusCode by assumption. reflexivity. }
  assert (Hvalid : forall c, codes.UnmarshalJSON status 0 = (c, None) ->
                             sent = Some (fromGrpcToStatus c)).
  { intros c Hc. now rewrite Hsent, Hc. }
  split; [exact Hvalid|].
  split. { intros n Hn Hs. apply Hvalid. rewrite Hs. now apply UnmarshalJSON_decimal. }
  split. { intros Hs. apply (Hvalid 5). now rewrite Hs. }
  split. { intros Hs. apply (Hvalid 16). now rewrite Hs. }
  repeat (split; [reflexivity|]).
  intros c Hc. cbn [In] in Hc. unfold fromGrpcToStatus.
  repeat match goal with
         | |- context [?a =? ?b] =>
             destruct (Z.eqb_spec a b); [exfalso; apply Hc; intuition congruence|]
         end.
  reflexivity.
Qed.

(** C4.  When [WriteHeader] was never called and the "Grpc-Status"
    header is absent, or holds a value [UnmarshalJSON] rejects, the
    status [Finalize] sends is 200, and the only error [Finalize] can
    return is the one of the sink's [Write]. *)
Theorem Finalize_status_fallback (sink : ResponseWriter) (ops : list Op) :
  forallb (fun o => negb (is_WriteHeader o)) ops = true ->
  let jw := run StringClone ops (NewJsonWriter sink) in
  Header jw !! "Grpc-Status"%string = None \/
  snd (codes.UnmarshalJSON (http_Header.Get (Header jw) "Grpc-Status") 0) <> None ->
  written_status (emitted jw (fst (Finalize StringClone jw))) = Some 200 /\
  snd (Finalize StringClone jw) = rw_write_err (w jw).
Proof.
  intros Hops jw Hbad. split; [|apply Finalize_sink].
  rewrite written_status_Finalize.
  subst jw. rewrite run_statusCode by assumption. cbn [NewJsonWriter statusCode Z.eqb].
  set (jw := run StringClone ops (NewJsonWriter sink)) in *.
  assert (Hcode : fst (codes.UnmarshalJSON
                         (http_Header.Get (Header jw) "Grpc-Status") 0) = 0).
  { destruct Hbad as [Habs | Herr].
    - unfold http_Header.Get, http_Header.index. rewrite Habs. reflexivity.
    - revert Herr. unfold codes.UnmarshalJSON.
      destruct (String.eqb _ "null"); [reflexivity|].
      destruct (ParseUint32 _) as [ci|].
      + destruct (codes.maxCode <=? ci); [reflexivity|]. cbn [snd]. congruence.
      + destruct (codes.lookup_name _ _); [|reflexivity]. cbn [snd]. congruence. }
  rewrite Hcode. reflexivity.
Qed.

(** C5 (as amended).  For every nonzero status code passed to
    [WriteHeader], if that is the last [WriteHeader] call, the status
    [Finalize] sends is that code verbatim, whatever the headers of the
    sink hold. *)
Theorem Finalize_status_explicit
    (sink : ResponseWriter) (pre post : list Op) (code : Z) :
  code <> 0 ->
  forallb (fun o => negb (is_WriteHeader o)) post = true ->
  let jw := run StringClone (pre ++ OpWriteHeader code :: post) (NewJsonWriter sink) in
  written_status (emitted jw (fst (Finalize StringClone jw))) = Some code.
Proof.
  intros Hcode Hpost jw. rewrite written_status_Finalize.
  assert (Hs : statusCode jw = code).
  { subst jw. rewrite run_app.
    change (run StringClone (OpWriteHeader code :: post) ?j)
      with (run StringClone post (step StringClone (OpWriteHeader code) j)).
    rewrite run_statusCode by assumption. now rewrite step_statusCode. }
  rewrite Hs. destruct (Z.eqb_spec code 0); congruence.
Qed.

Lemma decimal_value_FormatInt (n : Z) : decimal_value (FormatInt n) = Some n.
Proof.
  unfold decimal_value, FormatInt.
  rewrite NilZero.isi.
  - cbn [option_map]. now rewrite DecimalZ.of_to.
  - destruct n; cbn [Z.to_int]; try discriminate.
    intros [= H]. now apply Unsigned.to_uint_nonnil in H.
  - destruct n; cbn [Z.to_int]; try discriminate.
    intros [= H]. now apply Unsigned.to_uint_nonnil in H.
Qed.

(** C6.  Whatever the length of the buffered body (0 included), the
    "Content-Length" header [Finalize] sets on the sink is the decimal
    text of the exact number of bytes it writes as the body. *)
Theorem Finalize_Content_Length (jw : jsonWriter) :
  let jw' := fst (Finalize StringClone jw) in
  let n := len (written_body (emitted jw jw')) in
  Header jw' !! "Content-Length"%string = Some (Some [FormatInt n]) /\
  decimal_value (http_Header.Get (Header jw') "Content-Length") = Some n.
Proof.
  intros jw' n. subst n jw'. rewrite written_body_Finalize.
  destruct (Finalize_sink jw) as (Hh & _). rewrite Hh. clear Hh.
  unfold http_Header.Get, http_Header.index, http_Header.Set_.
  rewrite lookup_insert_eq. split; [reflexivity|].
  apply decimal_value_FormatInt.
Qed.

(** C9.  [Flush] is a no-op: it returns the writer as it is, so the
    body buffer, the recorded status code, [announcedTrailers], the
    sink's headers and the sink's log (no byte written) are unchanged. *)
Theorem Flush_noop (jw : jsonWriter) :
  Flush jw = jw /\
  body (Flush jw) = body jw /\
  statusCode (Flush jw) = statusCode jw /\
  announcedTrailers (Flush jw) = announcedTrailers jw /\
  Header (Flush jw) = Header jw /\
  rw_calls (w (Flush jw)) = rw_calls (w jw) /\
  written_body (emitted jw (Flush jw)) = [].
Proof.
  repeat split. unfold emitted, Flush. now rewrite drop_all.
Qed.

(** C10.  [Write(buf)] returns [(len(buf), nil)] in every state; the
    writer it leaves is the prepared writer with [buf] appended to the
    body buffer, and the sink's log is unchanged: nothing is written to
    the sink. *)
Theorem Write_buffers (buf : list Byte.byte) (jw : jsonWriter) :
  let prepared := prepareHeadersIfNecessary StringClone jw in
  snd (Write StringClone buf jw) = (len buf, None) /\
  fst (Write StringClone buf jw)
    = {| w := w prepared; statusCode := statusCode jw; header := header jw;
         body := body jw ++ buf;
         announcedTrailers := announcedTrailers prepared |} /\
  rw_calls (w (fst (Write StringClone buf jw))) = rw_calls (w jw) /\
  emitted jw (fst (Write StringClone buf jw)) = [].
Proof.
  intros prepared.
  destruct (prepare_fields jw) as (Hs & Hh & Hb & Hc & _).
  unfold emitted, Write. cbn [fst snd w]. subst prepared.
  rewrite Hs, Hh, Hb, Hc, drop_all. repeat split.
Qed.

(** *** Header preparation *)

(** All that is assumed of [sliceutils.StringClone]: the clone has the
    elements of the original. *)
Hypothesis StringClone_elems :
  forall s, slice_elems (StringClone s) = slice_elems s.











End WriterProperties.

(** ** The writer at work *)

(** The end-to-end scenario of the specification: a 12-byte frame and
    "Grpc-Status: 0" give status 200, "Content-Length: 7" and the 7
    payload bytes. *)
Example Finalize_scenario :
  let jw' := fst (Finalize clone_keeping_nil (handled "0")) in
  emitted (handled "0") jw' = [CallWriteHeader 200; CallWrite payload_b2; CallFlush] /\
  http_Header.Get (Header jw') "Content-Length" = "7"%string /\
  http_Header.Get (Header jw') "Content-Type" = "application/json"%string /\
  Header jw' !! "Trailer"%string = None /\
  announcedTrailers jw' = Some ["Grpc-Status"; "Grpc-Message"]%string.
Proof. vm_compute. repeat split. Qed.

Lemma Finalize_strips_frame_header_witness :
  (5 <= len (body (handled "0")) /\
   written_body (emitted (handled "0") (fst (Finalize clone_keeping_nil (handled "0"))))
   = drop 5 (body (handled "0"))) /\
  (len (body handled_short) < 5 /\
   written_body (emitted handled_short (fst (Finalize clone_keeping_nil handled_short)))
   = body handled_short).
Proof.
  split; split.
  - vm_compute. discriminate.
  - apply (Finalize_strips_frame_header clone_keeping_nil (handled "0")).
    vm_compute. discriminate.
  - vm_compute. reflexivity.
  - apply (Finalize_strips_frame_header clone_keeping_nil handled_short).
    vm_compute. reflexivity.
Defined.

Lemma Finalize_status_from_Grpc_Status_witness :
  forallb (fun o => negb (is_WriteHeader o)) (handler "5") = true /\
  http_Header.Get (Header (handled "5")) "Grpc-Status" = "5"%string /\
  written_status (emitted (handled "5") (fst (Finalize clone_keeping_nil (handled "5"))))
  = Some 404.
Proof.
  split; [reflexivity|]. split; [reflexivity|].
  apply (Finalize_status_from_Grpc_Status
           clone_keeping_nil (recorder ∅) (handler "5") eq_refl).
  reflexivity.
Defined.

Lemma Finalize_status_fallback_witness :
  forallb (fun o => negb (is_WriteHeader o)) (handler "teapot") = true /\
  snd (codes.UnmarshalJSON
         (http_Header.Get (Header (handled "teapot")) "Grpc-Status") 0) <> None /\
  written_status
    (emitted (handled "teapot") (fst (Finalize clone_keeping_nil (handled "teapot"))))
  = Some 200 /\
  snd (Finalize clone_keeping_nil (handled "teapot")) = rw_write_err (w (handled "teapot")).
Proof.
  split; [reflexivity|]. split; [vm_compute; discriminate|].
  apply (Finalize_status_fallback
           clone_keeping_nil (recorder ∅) (handler "teapot") eq_refl).
  right. vm_compute. discriminate.
Defined.

Lemma Finalize_status_explicit_witness :
  418 <> 0 /\
  forallb (fun o => negb (is_WriteHeader o)) (handler "5") = true /\
  let jw := run clone_keeping_nil ([OpFlush] ++ OpWriteHeader 418 :: handler "5")
                (NewJsonWriter (recorder ∅)) in
  written_status (emitted jw (fst (Finalize clone_keeping_nil jw))) = Some 418.
Proof.
  split; [discriminate|]. split; [reflexivity|].
  apply (Finalize_status_explicit
           clone_keeping_nil (recorder ∅) [OpFlush] (handler "5") 418);
    [discriminate | reflexivity].
Defined.

(** C5 as stated fails for the status code 0: after [WriteHeader(0)] the
    writer is indistinguishable from one whose status was never set, and
    [Finalize] sends the image of the "Grpc-Status" header, here 404. *)
Lemma WriteHeader_zero_not_verbatim :
  statusCode handled_zero = 0 /\
  written_status (emitted handled_zero (fst (Finalize clone_keeping_nil handled_zero)))
  = Some 404 /\
  written_status (emitted handled_zero (fst (Finalize clone_keeping_nil handled_zero)))
  <> Some 0.
Proof. vm_compute. repeat split; discriminate. Qed.



(** With a clone that always allocates, the same run leaves the guard
    closed: the list captured by the first [Write] stays, and the
    "Trailer" header stored later is sent as stored. *)
Example prepare_skipped_after_allocated_capture :
  let jw1 := invoke clone_allocating (MWrite frame_b2) (NewJsonWriter (recorder ∅)) in
  let stored :=
    step clone_allocating (OpHeaderStore "Trailer" (Some ["Grpc-Status"%string])) jw1 in
  let jw2 := invoke clone_allocating (MWrite []) stored in
  announcedTrailers jw1 = Some [] /\
  announcedTrailers jw2 = Some [] /\
  Header jw2 !! "Trailer"%string = Some (Some ["Grpc-Status"%string]).
Proof. vm_compute. repeat split. Qed.


(** * Further properties of the reader and the writer *)

(** ** The status table *)

(** X1.  Whatever the code, [fromGrpcToStatus] returns one of the twelve
    statuses of its table, all between 200 and 504, and it returns 200
    for the code OK only. *)
Theorem fromGrpcToStatus_range (c : codes.Code) :
  In (fromGrpcToStatus c) [200; 400; 404; 403; 401; 429; 501; 444; 504; 503; 428; 500] /\
  200 <= fromGrpcToStatus c <= 504 /\
  (fromGrpcToStatus c = 200 <-> c = codes.OK).
Proof.
  unfold fromGrpcToStatus.
  repeat match goal with
         | |- context [c =? ?k] => destruct (Z.eqb_spec c k) as [->|?]
         end;
    (split; [cbn [In]; tauto | split; [lia | split; [intros ?|intros ?]; congruence]]).
Qed.

(** ** The request reader *)

(** X2.  Whatever the length of the payload, the frame [NewJsonReader]
    builds is the flag 0, the payload length modulo 2^32 in big-endian
    order, and the payload itself; the payload is therefore recovered
    from the frame, and two payloads with the same frame are equal. *)
Theorem NewJsonReader_frame_any_length (B : list Byte.byte) :
  exists out,
    Encode B = Some out /\
    len out = len B + 5 /\
    take 1 out = [x00] /\
    BigEndian.Uint32 (take 4 (drop 1 out)) = len B mod 2 ^ 32 /\
    drop 5 out = B /\
    (forall B', Encode B' = Some out -> B' = B).
Proof.
  eexists. split; [apply NewJsonReader_frame|].
  split; [unfold len; cbn [length]; lia|].
  split; [reflexivity|].
  split; [cbn [drop take]; apply Uint32_bytes, uint32_range|].
  split; [reflexivity|].
  intros B'. rewrite NewJsonReader_frame. intros H. injection H. auto.
Qed.

(** X3.  [NewJsonReader] returns the read error exactly as [ReadAll]
    reported it, returns a stream if and only if that error is nil, and
    leaves the input drained; afterwards the input is closed if and only
    if it was closed before or the read succeeded. *)
Theorem NewJsonReader_results (body : ReadCloser) :
  snd (snd (NewJsonReader body)) = rc_err body /\
  (fst (snd (NewJsonReader body)) = None <-> rc_err body <> None) /\
  rc_data (fst (NewJsonReader body)) = [] /\
  (rc_closed (fst (NewJsonReader body)) = true
   <-> rc_closed body = true \/ rc_err body = None).
Proof.
  unfold NewJsonReader, ReadAll.
  destruct body as [data [e|] closed];
    cbn [rc_err rc_data rc_closed fst snd Close]; intuition congruence.
Qed.

(** ** The response writer: what a handler run leaves behind *)

Section WriterBehaviour.

Variable StringClone : option (list string) -> option (list string).

Lemma step_sink (o : Op) (jw : jsonWriter) :
  rw_calls (w (step StringClone o jw)) = rw_calls (w jw) /\
  rw_write_err (w (step StringClone o jw)) = rw_write_err (w jw) /\
  rw_flusher (w (step StringClone o jw)) = rw_flusher (w jw).
Proof.
  destruct (prepare_fields StringClone jw) as (_ & _ & _ & Hc & He & Hf).
  destruct o as [buf|code| |key value|key];
    cbn [step Write WriteHeader Flush fst w rw_set_header rw_calls rw_write_err
         rw_flusher]; auto.
Qed.

Lemma step_body (o : Op) (jw : jsonWriter) :
  body (step StringClone o jw)
  = body jw ++ match o with OpWrite buf => buf | _ => [] end.
Proof.
  destruct (prepare_fields StringClone jw) as (_ & _ & Hb & _).
  destruct o as [buf|code| |key value|key];
    cbn [step Write WriteHeader Flush fst body]; rewrite ?Hb, ?app_nil_r; reflexivity.
Qed.

(** X4.  Nothing a handler does reaches the sink before [Finalize]: after
    any run of [Write], [WriteHeader], [Flush] and header stores the
    sink's log is what it was, so no status line and no body byte has
    been sent. *)
Theorem handler_run_is_buffered (ops : list Op) (jw : jsonWriter) :
  rw_calls (w (run StringClone ops jw)) = rw_calls (w jw) /\
  emitted jw (run StringClone ops jw) = [] /\
  rw_write_err (w (run StringClone ops jw)) = rw_write_err (w jw) /\
  rw_flusher (w (run StringClone ops jw)) = rw_flusher (w jw).
Proof.
  assert (H : rw_calls (w (run StringClone ops jw)) = rw_calls (w jw) /\
              rw_write_err (w (run StringClone ops jw)) = rw_write_err (w jw) /\
              rw_flusher (w (run StringClone ops jw)) = rw_flusher (w jw)).
  { revert jw. induction ops as [|o ops IH]; intros jw; [auto|].
    change (run StringClone (o :: ops) jw)
      with (run StringClone ops (step StringClone o jw)).
    destruct (IH (step StringClone o jw)) as (-> & -> & ->).
    apply step_sink. }
  destruct H as (Hc & He & Hf). unfold emitted. rewrite Hc, drop_all. auto.
Qed.

Lemma run_body (ops : list Op) (jw : jsonWriter) :
  body (run StringClone ops jw) = body jw ++ written_by ops.
Proof.
  revert jw. induction ops as [|o ops IH]; intros jw.
  - cbn [run fold_left written_by]. now rewrite app_nil_r.
  - change (run StringClone (o :: ops) jw)
      with (run StringClone ops (step StringClone o jw)).
    rewrite IH, step_body, <- app_assoc.
    destruct o; reflexivity.
Qed.

(** X5.  The body buffer of the writer is exactly what the handler wrote:
    after any run it is the former buffer followed by the arguments of
    the [Write] calls in order; [WriteHeader], [Flush] and header stores
    add nothing to it. *)
Theorem handler_run_accumulates (ops : list Op) (jw : jsonWriter) :
  body (run StringClone ops jw) = body jw ++ written_by ops.
Proof. apply run_body. Qed.

(** *** Finalize after a run *)

Lemma Finalize_of_prefixed (jw : jsonWriter) (h rest : list Byte.byte) :
  length h = 5%nat ->
  body jw = h ++ rest ->
  written_body (emitted jw (fst (Finalize StringClone jw))) = rest /\
  Header (fst (Finalize StringClone jw)) !! "Content-Length"%string
  = Some (Some [FormatInt (len rest)]).
Proof.
  intros Hh Hb.
  assert (Hout : (if 5 <=? len (body jw) then drop 5 (body jw) else body jw) = rest).
  { rewrite Hb. unfold len. rewrite length_app, Hh.
    destruct (Z.leb_spec 5 (Z.of_nat (5 + length rest))); [|lia].
    rewrite <- Hh. apply drop_app_length. }
  split.
  - now rewrite written_body_Finalize.
  - destruct (Finalize_sink StringClone jw) as (-> & _).
    rewrite Hout. apply lookup_insert_eq.
Qed.

(** X6.  The frame [NewJsonReader] builds is the frame [Finalize] undoes:
    when a handler writes that frame back, in any number of chunks, to a
    fresh writer, [Finalize] sends exactly the original payload and sets
    "Content-Length" to its length. *)
Theorem reader_frame_round_trip
    (sink : ResponseWriter) (ops : list Op) (B out : list Byte.byte) :
  Encode B = Some out ->
  written_by ops = out ->
  let jw := run StringClone ops (NewJsonWriter sink) in
  written_body (emitted jw (fst (Finalize StringClone jw))) = B /\
  Header (fst (Finalize StringClone jw)) !! "Content-Length"%string
  = Some (Some [FormatInt (len B)]).
Proof.
  rewrite NewJsonReader_frame. intros [= <-] Hops jw.
  apply (Finalize_of_prefixed jw (take 5 (written_by ops)) B);
    subst jw; rewrite ?run_body, Hops; reflexivity.
Qed.

(** X7.  [Finalize] removes the first five bytes of what the handler
    wrote and nothing else, whatever those bytes are: it neither reads
    the flag or the length field nor looks for further frames, so all
    that follows the first five bytes is sent as the body. *)
Theorem Finalize_strips_first_five_only
    (sink : ResponseWriter) (ops : list Op) (h rest : list Byte.byte) :
  length h = 5%nat ->
  written_by ops = h ++ rest ->
  let jw := run StringClone ops (NewJsonWriter sink) in
  written_body (emitted jw (fst (Finalize StringClone jw))) = rest /\
  Header (fst (Finalize StringClone jw)) !! "Content-Length"%string
  = Some (Some [FormatInt (len rest)]).
Proof.
  intros Hh Hops jw. apply (Finalize_of_prefixed jw h rest Hh).
  subst jw. rewrite run_body, Hops. reflexivity.
Qed.

(** X8.  When the sink's [Write] fails, [Finalize] returns that very
    error and does not flush.  By then "Content-Length" has been set to
    the length of the stripped body and the status line has been sent:
    the sink has received exactly one [WriteHeader], carrying the
    explicit status or else the image of "Grpc-Status", followed by the
    failed [Write] of the stripped body, and nothing else. *)
Theorem Finalize_write_error (jw : jsonWriter) (err : error) :
  rw_write_err (w jw) = Some err ->
  let out := if 5 <=? len (body jw) then drop 5 (body jw) else body jw in
  let status :=
    if statusCode jw =? 0
    then fromGrpcToStatus
           (fst (codes.UnmarshalJSON (http_Header.Get (Header jw) "Grpc-Status") 0))
    else statusCode jw in
  snd (Finalize StringClone jw) = Some err /\
  emitted jw (fst (Finalize StringClone jw)) = [CallWriteHeader status; CallWrite out] /\
  rw_calls (w (fst (Finalize StringClone jw)))
  = rw_calls (w jw) ++ [CallWriteHeader status; CallWrite out] /\
  Header (fst (Finalize StringClone jw)) !! "Content-Length"%string
  = Some (Some [FormatInt (len out)]).
Proof.
  intros Herr out status.
  destruct (Finalize_sink StringClone jw) as (Hh & Hc & He & _).
  fold out status in Hh, Hc. rewrite Herr in Hc, He.
  unfold emitted. rewrite Hh, Hc, He, drop_app_length.
  unfold http_Header.Set_. rewrite lookup_insert_eq. repeat split.
Qed.

Lemma Finalize_lookup_other (jw : jsonWriter) (key : string) :
  key <> "Trailer"%string -> key <> "Content-Type"%string ->
  key <> "Content-Length"%string ->
  Header (fst (Finalize StringClone jw)) !! key = Header jw !! key.
Proof.
  intros Ht Hc Hl.
  destruct (Finalize_sink StringClone jw) as (-> & _).
  unfold http_Header.Set_. rewrite lookup_insert_ne by congruence.
  now apply prepare_lookup_other.
Qed.

(** X9.  [Write], [WriteHeader] and [Finalize] touch no header other
    than "Trailer", "Content-Type" and "Content-Length": every other
    header of the sink, "Grpc-Status" and "Grpc-Message" among them, is
    still there with its value when the response is sent. *)
Theorem writer_keeps_other_headers (m : Method) (jw : jsonWriter) (key : string) :
  key <> "Trailer"%string -> key <> "Content-Type"%string ->
  key <> "Content-Length"%string ->
  Header (invoke StringClone m jw) !! key = Header jw !! key.
Proof.
  intros Ht Hc Hl. destruct m as [buf|code|]; cbn [invoke].
  - exact (prepare_lookup_other StringClone jw key Ht Hc).
  - exact (prepare_lookup_other StringClone jw key Ht Hc).
  - now apply Finalize_lookup_other.
Qed.

Lemma Finalize_sink_config (jw : jsonWriter) :
  rw_write_err (w (fst (Finalize StringClone jw))) = rw_write_err (w jw) /\
  rw_flusher (w (fst (Finalize StringClone jw))) = rw_flusher (w jw).
Proof.
  destruct (prepare_fields StringClone jw) as (_ & _ & _ & _ & He & Hf).
  unfold Finalize. revert He Hf.
  generalize (prepareHeadersIfNecessary StringClone jw) as p.
  intros [[ph pc pe pf] ps phd pb pa].
  cbn [w rw_write_err rw_flusher rw_header rw_set_header statusCode].
  intros -> ->.
  destruct (codes.UnmarshalJSON _ 0) as [code uerr].
  destruct (negb (ps =? 0));
    cbn [rw_call rw_write_err rw_flusher];
    destruct (rw_write_err (w jw)); [ | destruct (rw_flusher (w jw)) eqn:Hfl .. ];
    cbn [fst w rw_call rw_write_err rw_flusher]; auto.
Qed.

(** X10.  [Finalize] does not consume the buffer: a second call sends the
    same status line, the same body and the same flush once more, so a
    response is sent twice when [Finalize] is called twice. *)
Theorem Finalize_twice_repeats (jw : jsonWriter) :
  let jw1 := fst (Finalize StringClone jw) in
  let jw2 := fst (Finalize StringClone jw1) in
  body jw1 = body jw /\
  emitted jw1 jw2 = emitted jw jw1 /\
  rw_calls (w jw2) = rw_calls (w jw) ++ emitted jw jw1 ++ emitted jw jw1.
Proof.
  intros jw1 jw2.
  destruct (Finalize_sink StringClone jw) as (_ & Hc & _ & Hs & Hb & _).
  destruct (Finalize_sink StringClone jw1) as (_ & Hc1 & _).
  destruct (Finalize_sink_config jw) as (He & Hf).
  fold jw1 in Hc, Hs, Hb, He, Hf. fold jw2 in Hc1.
  assert (Hg : http_Header.Get (Header jw1) "Grpc-Status"
               = http_Header.Get (Header jw) "Grpc-Status").
  { unfold http_Header.Get, http_Header.index. subst jw1.
    now rewrite Finalize_lookup_other by discriminate. }
  rewrite Hs, Hb, Hg, He, Hf in Hc1.
  assert (E1 : emitted jw jw1 = drop (length (rw_calls (w jw))) (rw_calls (w jw1)))
    by reflexivity.
  assert (E2 : emitted jw1 jw2 = drop (length (rw_calls (w jw1))) (rw_calls (w jw2)))
    by reflexivity.
  rewrite Hc, drop_app_length in E1. rewrite Hc1, drop_app_length in E2.
  split; [exact Hb|]. split; [congruence|].
  rewrite Hc1, Hc, E1, <- app_assoc. reflexivity.
Qed.

(** X11.  A [WriteHeader(0)] cancels an earlier explicit status: when it
    is the last [WriteHeader] of the run, [Finalize] derives the status
    from the "Grpc-Status" header as if none had ever been set. *)
Theorem WriteHeader_zero_resets (jw0 : jsonWriter) (pre post : list Op) :
  forallb (fun o => negb (is_WriteHeader o)) post = true ->
  let jw := run StringClone (pre ++ OpWriteHeader 0 :: post) jw0 in
  written_status (emitted jw (fst (Finalize StringClone jw)))
  = Some (fromGrpcToStatus
            (fst (codes.UnmarshalJSON (http_Header.Get (Header jw) "Grpc-Status") 0))).
Proof.
  intros Hpost jw. rewrite written_status_Finalize.
  assert (Hs : statusCode jw = 0).
  { subst jw. rewrite run_app.
    change (run StringClone (OpWriteHeader 0 :: post) ?j)
      with (run StringClone post (step StringClone (OpWriteHeader 0) j)).
    rewrite run_statusCode by assumption. now rewrite step_statusCode. }
  now rewrite Hs.
Qed.

(** X12.  Once a non-nil trailer list has been captured, the writer never
    prepares headers again: [Write] and [WriteHeader] leave the whole
    header map as it is, and [Finalize] sets "Content-Length" and changes
    nothing else, so whatever the handler stores afterwards under
    "Trailer" or "Content-Type" is sent as stored. *)
Theorem captured_headers_left_alone
    (buf : list Byte.byte) (code : Z) (jw : jsonWriter) :
  announcedTrailers jw <> None ->
  Header (fst (Write StringClone buf jw)) = Header jw /\
  Header (WriteHeader StringClone code jw) = Header jw /\
  Header (fst (Finalize StringClone jw))
  = http_Header.Set_ "Content-Length"
      (FormatInt (len (if 5 <=? len (body jw) then drop 5 (body jw) else body jw)))
      (Header jw) /\
  Header (fst (Finalize StringClone jw)) !! "Trailer"%string
  = Header jw !! "Trailer"%string /\
  Header (fst (Finalize StringClone jw)) !! "Content-Type"%string
  = Header jw !! "Content-Type"%string.
Proof.
  intros Ha.
  assert (Hp := prepare_skipped StringClone jw Ha).
  assert (Hf : Header (fst (Finalize StringClone jw))
               = http_Header.Set_ "Content-Length"
                   (FormatInt (len (if 5 <=? len (body jw)
                                    then drop 5 (body jw) else body jw)))
                   (Header jw)).
  { destruct (Finalize_sink StringClone jw) as (-> & _). now rewrite Hp. }
  split; [unfold Write, Header; cbn [fst w]; now rewrite Hp|].
  split; [unfold WriteHeader, Header; cbn [w]; now rewrite Hp|].
  split; [exact Hf|].
  rewrite Hf. unfold http_Header.Set_.
  now rewrite !lookup_insert_ne by discriminate.
Qed.



End WriterBehaviour.

(** ** The default status *)

Lemma fromGrpcToStatus_in_table (c : codes.Code) :
  In (fromGrpcToStatus c) [200; 400; 404; 403; 401; 429; 501; 444; 504; 503; 428; 500].
Proof.
  unfold fromGrpcToStatus.
  repeat match goal with
         | |- context [c =? ?k] => destruct (c =? k)
         end; cbn [In]; tauto.
Qed.

(** X14.  When the handler never calls [WriteHeader], the status
    [Finalize] sends is one of the twelve statuses of the table, whatever
    the "Grpc-Status" header holds or lacks: no header value can make the
    writer send a status outside 200..504. *)
Theorem Finalize_default_status_in_table
    (StringClone : option (list string) -> option (list string))
    (sink : ResponseWriter) (ops : list Op) :
  forallb (fun o => negb (is_WriteHeader o)) ops = true ->
  let jw := run StringClone ops (NewJsonWriter sink) in
  exists status,
    written_status (emitted jw (fst (Finalize StringClone jw))) = Some status /\
    In status [200; 400; 404; 403; 401; 429; 501; 444; 504; 503; 428; 500].
Proof.
  intros Hops jw. eexists. split.
  - rewrite written_status_Finalize. subst jw.
    rewrite run_statusCode by assumption. reflexivity.
  - apply fromGrpcToStatus_in_table.
Qed.

(** ** The further properties at work *)

Lemma reader_frame_round_trip_witness :
  let ops := [OpWrite (take 3 frame_b2); OpFlush; OpWrite (drop 3 frame_b2)] in
  let jw := run clone_keeping_nil ops (NewJsonWriter (recorder ∅)) in
  Encode payload_b2 = Some frame_b2 /\
  written_by ops = frame_b2 /\
  written_body (emitted jw (fst (Finalize clone_keeping_nil jw))) = payload_b2 /\
  Header (fst (Finalize clone_keeping_nil jw)) !! "Content-Length"%string
  = Some (Some [FormatInt (len payload_b2)]).
Proof.
  split; [reflexivity|]. split; [reflexivity|].
  exact (reader_frame_round_trip clone_keeping_nil (recorder ∅)
           [OpWrite (take 3 frame_b2); OpFlush; OpWrite (drop 3 frame_b2)]
           payload_b2 frame_b2 eq_refl eq_refl).
Defined.

Lemma Finalize_strips_first_five_only_witness :
  let h := [xff; xff; xff; xff; xff] in
  let ops := [OpWrite (h ++ payload_b2); OpWrite frame_b2] in
  let jw := run clone_keeping_nil ops (NewJsonWriter (recorder ∅)) in
  length h = 5%nat /\
  written_by ops = h ++ (payload_b2 ++ frame_b2) /\
  written_body (emitted jw (fst (Finalize clone_keeping_nil jw)))
  = payload_b2 ++ frame_b2 /\
  Header (fst (Finalize clone_keeping_nil jw)) !! "Content-Length"%string
  = Some (Some [FormatInt (len (payload_b2 ++ frame_b2))]).
Proof.
  split; [reflexivity|]. split; [reflexivity|].
  exact (Finalize_strips_first_five_only clone_keeping_nil (recorder ∅)
           [OpWrite ([xff; xff; xff; xff; xff] ++ payload_b2); OpWrite frame_b2]
           [xff; xff; xff; xff; xff] (payload_b2 ++ frame_b2) eq_refl eq_refl).
Defined.

Lemma Finalize_write_error_witness :
  rw_write_err (w handled_broken) = Some "broken pipe"%string /\
  snd (Finalize clone_keeping_nil handled_broken) = Some "broken pipe"%string /\
  emitted handled_broken (fst (Finalize clone_keeping_nil handled_broken))
  = [CallWriteHeader 200; CallWrite payload_b2] /\
  Header (fst (Finalize clone_keeping_nil handled_broken)) !! "Content-Length"%string
  = Some (Some ["7"%string]).
Proof.
  split; [reflexivity|].
  destruct (Finalize_write_error clone_keeping_nil handled_broken "broken pipe" eq_refl)
    as (H1 & H2 & _ & H4).
  split; [exact H1|]. split; [exact H2 | exact H4].
Defined.

Lemma writer_keeps_other_headers_witness :
  "Grpc-Status"%string <> "Trailer"%string /\
  "Grpc-Status"%string <> "Content-Type"%string /\
  "Grpc-Status"%string <> "Content-Length"%string /\
  Header (invoke clone_keeping_nil MFinalize (handled "5")) !! "Grpc-Status"%string
  = Header (handled "5") !! "Grpc-Status"%string.
Proof.
  assert (H1 : "Grpc-Status"%string <> "Trailer"%string) by discriminate.
  assert (H2 : "Grpc-Status"%string <> "Content-Type"%string) by discriminate.
  assert (H3 : "Grpc-Status"%string <> "Content-Length"%string) by discriminate.
  repeat (split; [assumption|]).
  exact (writer_keeps_other_headers clone_keeping_nil MFinalize (handled "5")
           "Grpc-Status" H1 H2 H3).
Defined.

Lemma WriteHeader_zero_resets_witness :
  let jw := run clone_keeping_nil ([OpWriteHeader 418] ++ OpWriteHeader 0 :: handler "5")
                (NewJsonWriter (recorder ∅)) in
  forallb (fun o => negb (is_WriteHeader o)) (handler "5") = true /\
  written_status (emitted jw (fst (Finalize clone_keeping_nil jw)))
  = Some (fromGrpcToStatus
            (fst (codes.UnmarshalJSON (http_Header.Get (Header jw) "Grpc-Status") 0))) /\
  fromGrpcToStatus
    (fst (codes.UnmarshalJSON (http_Header.Get (Header jw) "Grpc-Status") 0)) = 404.
Proof.
  split; [reflexivity|]. split; [|reflexivity].
  exact (WriteHeader_zero_resets clone_keeping_nil (NewJsonWriter (recorder ∅))
           [OpWriteHeader 418] (handler "5") eq_refl).
Defined.

Lemma captured_headers_left_alone_witness :
  let jw := run clone_keeping_nil
                (handler "0" ++ [OpHeaderStore "Content-Type" (Some ["text/plain"%string])])
                (NewJsonWriter (recorder ∅)) in
  announcedTrailers jw <> None /\
  Header jw !! "Content-Type"%string = Some (Some ["text/plain"%string]) /\
  Header (fst (Write clone_keeping_nil payload_b2 jw)) = Header jw /\
  Header (WriteHeader clone_keeping_nil 200 jw) = Header jw /\
  Header (fst (Finalize clone_keeping_nil jw)) !! "Content-Type"%string
  = Header jw !! "Content-Type"%string.
Proof.
  intros jw.
  assert (H1 : announcedTrailers jw <> None) by (vm_compute; discriminate).
  split; [assumption|]. split; [reflexivity|].
  destruct (captured_headers_left_alone clone_keeping_nil payload_b2 200 jw H1)
    as (Hw & Hh & _ & _ & Hct).
  repeat split; assumption.
Defined.


Lemma Finalize_default_status_in_table_witness :
  let jw := handled "not a code" in
  forallb (fun o => negb (is_WriteHeader o)) (handler "not a code") = true /\
  exists status,
    written_status (emitted jw (fst (Finalize clone_keeping_nil jw))) = Some status /\
    In status [200; 400; 404; 403; 401; 429; 501; 444; 504; 503; 428; 500].
Proof.
  split; [reflexivity|].
  exact (Finalize_default_status_in_table clone_keeping_nil (recorder ∅)
           (handler "not a code") eq_refl).
Defined.
